(** * Workflow-template server: client resolution and request routing

    A shallow embedding of [cmd/server/workflowtemplate/workflow_template_server.go].

    The Go file is orchestration code: every method of [WorkflowTemplateServer]
    resolves a client pair, picks a namespace and then calls into packages
    that live outside the file (gRPC metadata, encoding/json, client-go, the
    generated clientset, the validator, logrus).  Those packages are gathered
    in two interfaces, [Domain] (their types) and [Collaborators] (their
    functions); the methods themselves are transcribed statement by statement
    in a state-and-error monad over a [World] that holds the receiver struct,
    the cluster store and the chronological list of collaborator calls. *)

From stdpp Require Import base option strings list gmap.

Set Default Proof Using "Type".

(** ** Go values *)

(** A Go pointer that may be nil. *)
Definition ptr (A : Type) : Type := option A.

(** The types owned by imported packages. *)
Class Domain : Type := {
  (** [v1alpha1.WorkflowTemplate] *)
  WorkflowTemplate : Type;
  (** [v1alpha1.WorkflowTemplateList] *)
  WorkflowTemplateList : Type;
  (** a non-nil [*versioned.Clientset] *)
  wf_Clientset : Type;
  (** a non-nil [*kubernetes.Clientset] *)
  kube_Clientset : Type;
  (** every field of [rest.Config] other than [BearerToken] *)
  ConfigFields : Type;
  (** their zero value, as in the literal [rest.Config{}] *)
  ConfigFields_zero : ConfigFields;
  (** dynamic error types of the imported packages *)
  CollabError : Type;
  (** their [Error()] method *)
  CollabError_Error : CollabError -> string;
  (** the contents of the API server's store *)
  Cluster : Type;
}.

Section Values.
Context {dom : Domain}.

(** The Go interface [error], restricted to non-nil values: either the
    string error built by [errors.New] (and by [fmt.Errorf] without a
    wrapping verb), or an error value made by a collaborator. *)
Inductive error : Type :=
| errors_New (text : string)
| foreign (e : CollabError).

Definition Error (e : error) : string :=
  match e with
  | errors_New text => text
  | foreign c => CollabError_Error c
  end.

(** [fmt.Errorf(prefix + "%v", err)]. *)
Definition fmt_Errorf_v (prefix : string) (err : error) : error :=
  errors_New (prefix +:+ Error err).

(** A Go result pair [(value, error)] in which exactly one side is set. *)
Inductive Result (A : Type) : Type :=
| Ok (a : A)
| Err (e : error).
Global Arguments Ok {A} a.
Global Arguments Err {A} e.

Definition is_Err {A} (r : Result A) : bool :=
  match r with Ok _ => false | Err _ => true end.

(** [rest.Config]. *)
Record rest_Config : Type := mk_rest_Config {
  BearerToken : string;
  fields : ConfigFields;
}.

Definition rest_Config_zero : rest_Config :=
  {| BearerToken := ""; fields := ConfigFields_zero |}.

Definition set_BearerToken (c : rest_Config) (tok : string) : rest_Config :=
  {| BearerToken := tok; fields := fields c |}.

(** [metadata.MD] is [map[string][]string]; [Get] of a missing key is nil. *)
Definition MD_Get (md : gmap string (list string)) (k : string) : list string :=
  default [] (md !! k).

(** The part of [context.Context] the server looks at. *)
Record Context : Type := { incoming : option (gmap string (list string)) }.

Definition metadata_FromIncomingContext (ctx : Context)
  : gmap string (list string) * bool :=
  match incoming ctx with
  | Some md => (md, true)
  | None => (∅, false)
  end.

(** ** Structs of the package *)

Record WorkflowTemplateServer : Type := {
  namespace : string;
  wfClientset : wf_Clientset;
  kubeClientset : kube_Clientset;
  enableClientAuth : bool;
}.

Definition NewWorkflowTemplateServer (ns : string) (wf : wf_Clientset)
    (kube : kube_Clientset) (auth : bool) : WorkflowTemplateServer :=
  {| namespace := ns; wfClientset := wf; kubeClientset := kube;
     enableClientAuth := auth |}.

Record WorkflowTemplateCreateRequest : Type := {
  create_Namespace : string;
  create_Template : ptr WorkflowTemplate;
}.

Record WorkflowTemplateGetRequest : Type := {
  get_Namespace : string;
  get_TemplateName : string;
}.

Record WorkflowTemplateListRequest : Type := {
  list_Namespace : string;
}.

Record WorkflowTemplateDeleteRequest : Type := {
  delete_Namespace : string;
  delete_TemplateName : string;
}.

Record WorkflowDeleteResponse : Type := {
  TemplateName : string;
  Status : string;
}.

(** ** Calls that leave the file

    One constructor per call site; the list of calls made so far is part
    of the [World], oldest first. *)
Inductive Call : Type :=
| wfclientset_NewForConfig_call (cfg : rest_Config)
| kubernetes_NewForConfig_call (cfg : rest_Config)
| log_Errorf (format : string) (cfg : rest_Config) (err : error)
| ValidateWorkflowTemplate_call (c : wf_Clientset) (ns : string)
    (t : ptr WorkflowTemplate) (verdict : option error)
| Create_call (c : wf_Clientset) (ns : string) (t : WorkflowTemplate)
| Get_call (c : wf_Clientset) (ns name : string)
| List_call (c : wf_Clientset) (ns : string)
| Delete_call (c : wf_Clientset) (ns name : string).

Record World : Type := {
  self : WorkflowTemplateServer;
  cluster : Cluster;
  calls : list Call;
}.
End Values.

(** The functions owned by imported packages. *)
Class Collaborators {dom : Domain} : Type := {
  (** [common.CLIENT_REST_CONFIG] and [common.AUTH_TOKEN], metadata keys *)
  CLIENT_REST_CONFIG : string;
  AUTH_TOKEN : string;
  (** [json.Unmarshal(data, &cfg)]: the filled-in value, or an error *)
  json_Unmarshal : string -> rest_Config -> Result rest_Config;
  (** [wfclientset.NewForConfig] and [kubernetes.NewForConfig]; both copy
      the configuration they are handed *)
  wfclientset_NewForConfig : rest_Config -> Result wf_Clientset;
  kubernetes_NewForConfig : rest_Config -> Result kube_Clientset;
  (** [validate.ValidateWorkflowTemplate(getter, tmpl)], with the getter as
      a read-only lookup by name; [None] is the nil error *)
  validate_ValidateWorkflowTemplate :
    (string -> Result (ptr WorkflowTemplate)) -> ptr WorkflowTemplate -> option error;
  (** [WorkflowTemplates(ns)] of a clientset: the four requests it sends *)
  backend_Create : wf_Clientset -> string -> WorkflowTemplate -> Cluster ->
                   Result (ptr WorkflowTemplate) * Cluster;
  backend_Get : wf_Clientset -> string -> string -> Cluster ->
                Result (ptr WorkflowTemplate);
  backend_List : wf_Clientset -> string -> Cluster ->
                 Result (ptr WorkflowTemplateList);
  backend_Delete : wf_Clientset -> string -> string -> Cluster ->
                   option error * Cluster;
}.

(** ** The methods of [WorkflowTemplateServer] *)

Section Server.
Context {dom : Domain} {plat : Collaborators}.

(** A Go method body: it runs in a world, returns a value or an error and
    leaves a world behind. *)
Definition M (A : Type) : Type := World -> Result A * World.

Definition ret {A} (a : A) : M A := fun w => (Ok a, w).

(** [return nil, err] *)
Definition fail {A} (e : error) : M A := fun w => (Err e, w).

(** [x, err := m; if err != nil { return nil, err }; k x] *)
Definition bind {A B} (m : M A) (k : A -> M B) : M B := fun w =>
  match m w with
  | (Ok a, w') => k a w'
  | (Err e, w') => (Err e, w')
  end.

Notation "'let*' x ':=' m 'in' k" := (bind m (fun x => k))
  (at level 10, x name, m at level 100, k at level 200).
Notation "'run' m 'in' k" := (bind m (fun _ => k))
  (at level 10, m at level 100, k at level 200).

Definition of_Result {A} (r : Result A) : M A := fun w => (r, w).

(** The receiver [s]/[wts]: a pointer into the world. *)
Definition receiver : M WorkflowTemplateServer := fun w => (Ok (self w), w).

Definition emit (c : Call) (w : World) : World :=
  {| self := self w; cluster := cluster w; calls := calls w ++ [c] |}.

Definition call (c : Call) : M unit := fun w => (Ok tt, emit c w).

(** [l[0]] for a slice whose length was just checked. *)
Definition index0 (l : list string) : string := default "" (l !! 0).

(** The two client constructors, with their Go result handed back as a value
    so that the caller can log before returning. *)
Definition new_wfClientset (cfg : rest_Config) : M (Result wf_Clientset) :=
  run call (wfclientset_NewForConfig_call cfg) in ret (wfclientset_NewForConfig cfg).

Definition new_kubeClientset (cfg : rest_Config) : M (Result kube_Clientset) :=
  run call (kubernetes_NewForConfig_call cfg) in ret (kubernetes_NewForConfig cfg).

(** [templateresolution.WrapWorkflowTemplateInterface(WorkflowTemplates(ns))]:
    only the lookup by name is kept. *)
Definition WrapWorkflowTemplateInterface (c : wf_Clientset) (ns : string)
    (store : Cluster) : string -> Result (ptr WorkflowTemplate) :=
  fun name => backend_Get c ns name store.

Definition ValidateWorkflowTemplate (c : wf_Clientset) (ns : string)
    (t : ptr WorkflowTemplate) : M (option error) := fun w =>
  let verdict :=
    validate_ValidateWorkflowTemplate (WrapWorkflowTemplateInterface c ns (cluster w)) t in
  (Ok verdict, emit (ValidateWorkflowTemplate_call c ns t verdict) w).

Definition WorkflowTemplates_Create (c : wf_Clientset) (ns : string)
    (t : WorkflowTemplate) : M (Result (ptr WorkflowTemplate)) := fun w =>
  let r := backend_Create c ns t (cluster w) in
  (Ok r.1, {| self := self w; cluster := r.2; calls := calls w ++ [Create_call c ns t] |}).

Definition WorkflowTemplates_Get (c : wf_Clientset) (ns name : string)
    : M (Result (ptr WorkflowTemplate)) := fun w =>
  (Ok (backend_Get c ns name (cluster w)), emit (Get_call c ns name) w).

Definition WorkflowTemplates_List (c : wf_Clientset) (ns : string)
    : M (Result (ptr WorkflowTemplateList)) := fun w =>
  (Ok (backend_List c ns (cluster w)), emit (List_call c ns) w).

Definition WorkflowTemplates_Delete (c : wf_Clientset) (ns name : string)
    : M (option error) := fun w =>
  let r := backend_Delete c ns name (cluster w) in
  (Ok r.1, {| self := self w; cluster := r.2; calls := calls w ++ [Delete_call c ns name] |}).

Definition wf_format : string :=
  "Failure to create wfClientset with ClientConfig '%+v': %s".
Definition kube_format : string :=
  "Failure to create kubeClientset with ClientConfig '%+v': %s".

Definition GetWFClient (ctx : Context) : M (wf_Clientset * kube_Clientset) :=
  let md := (metadata_FromIncomingContext ctx).1 in
  let* s := receiver in
  if negb (enableClientAuth s) then ret (wfClientset s, kubeClientset s) else
  if decide (length (MD_Get md CLIENT_REST_CONFIG) = 0) then
    fail (errors_New "Client kubeconfig is not found")
  else
  let restConfigStr := index0 (MD_Get md CLIENT_REST_CONFIG) in
  let bearerToken :=
    if decide (0 < length (MD_Get md AUTH_TOKEN))
    then index0 (MD_Get md AUTH_TOKEN) else "" in
  let* restConfig := of_Result (json_Unmarshal restConfigStr rest_Config_zero) in
  let restConfig := set_BearerToken restConfig bearerToken in
  let* r := new_wfClientset restConfig in
  match r with
  | Err err => run call (log_Errorf wf_format restConfig err) in fail err
  | Ok wfClientset =>
      let* r := new_kubeClientset restConfig in
      match r with
      | Err err => run call (log_Errorf kube_format restConfig err) in fail err
      | Ok clientset => ret (wfClientset, clientset)
      end
  end.

Definition CreateWorkflowTemplate (ctx : Context)
    (wftmplReq : WorkflowTemplateCreateRequest) : M (ptr WorkflowTemplate) :=
  let* clients := GetWFClient ctx in
  let wfClient := clients.1 in
  let* wts := receiver in
  let ns := if decide (create_Namespace wftmplReq ≠ "")
            then create_Namespace wftmplReq else namespace wts in
  match create_Template wftmplReq with
  | None => fail (errors_New "WorkflowTemplate is not found in Request body")
  | Some t =>
      let* err := ValidateWorkflowTemplate wfClient ns (Some t) in
      match err with
      | Some err => fail (fmt_Errorf_v "Failed to create workflow template: " err)
      | None =>
          let* r := WorkflowTemplates_Create wfClient ns t in
          match r with
          | Err err => fail err
          | Ok created => ret created
          end
      end
  end.

Definition GetWorkflowTemplate (ctx : Context)
    (wftmplReq : WorkflowTemplateGetRequest) : M (ptr WorkflowTemplate) :=
  let* clients := GetWFClient ctx in
  let wfClient := clients.1 in
  let* wts := receiver in
  let ns := if decide (get_Namespace wftmplReq ≠ "")
            then get_Namespace wftmplReq else namespace wts in
  let* r := WorkflowTemplates_Get wfClient ns (get_TemplateName wftmplReq) in
  match r with
  | Err err => fail err
  | Ok wfTmpl => ret wfTmpl
  end.

Definition ListWorkflowTemplates (ctx : Context)
    (wftmplReq : WorkflowTemplateListRequest) : M (ptr WorkflowTemplateList) :=
  let* clients := GetWFClient ctx in
  let wfClient := clients.1 in
  let* wts := receiver in
  let ns := if decide (list_Namespace wftmplReq ≠ "")
            then list_Namespace wftmplReq else namespace wts in
  let* r := WorkflowTemplates_List wfClient ns in
  match r with
  | Err err => fail err
  | Ok wfList => ret wfList
  end.

Definition DeleteWorkflowTemplate (ctx : Context)
    (wftmplReq : WorkflowTemplateDeleteRequest) : M WorkflowDeleteResponse :=
  let* clients := GetWFClient ctx in
  let wfClient := clients.1 in
  let* wts := receiver in
  let ns := if decide (delete_Namespace wftmplReq ≠ "")
            then delete_Namespace wftmplReq else namespace wts in
  let* err := WorkflowTemplates_Delete wfClient ns (delete_TemplateName wftmplReq) in
  match err with
  | Some err => fail err
  | None => ret {| TemplateName := delete_TemplateName wftmplReq;
                   Status := "Deleted" |}
  end.

Definition LintWorkflowTemplate (ctx : Context)
    (wftmplReq : WorkflowTemplateCreateRequest) : M (ptr WorkflowTemplate) :=
  let* clients := GetWFClient ctx in
  let wfClient := clients.1 in
  let* wts := receiver in
  let ns := if decide (create_Namespace wftmplReq ≠ "")
            then create_Namespace wftmplReq else namespace wts in
  let* err := ValidateWorkflowTemplate wfClient ns (create_Template wftmplReq) in
  match err with
  | Some err => fail err
  | None => ret (create_Template wftmplReq)
  end.

(** ** The exposed surface: five operations over one request type *)

Inductive Request : Type :=
| Create_request (r : WorkflowTemplateCreateRequest)
| Get_request (r : WorkflowTemplateGetRequest)
| List_request (r : WorkflowTemplateListRequest)
| Delete_request (r : WorkflowTemplateDeleteRequest)
| Lint_request (r : WorkflowTemplateCreateRequest).

Inductive Response : Type :=
| Template_response (t : ptr WorkflowTemplate)
| List_response (l : ptr WorkflowTemplateList)
| Delete_response (r : WorkflowDeleteResponse).

Definition serve (ctx : Context) (req : Request) : M Response :=
  match req with
  | Create_request r =>
      let* t := CreateWorkflowTemplate ctx r in ret (Template_response t)
  | Get_request r =>
      let* t := GetWorkflowTemplate ctx r in ret (Template_response t)
  | List_request r =>
      let* l := ListWorkflowTemplates ctx r in ret (List_response l)
  | Delete_request r =>
      let* d := DeleteWorkflowTemplate ctx r in ret (Delete_response d)
  | Lint_request r =>
      let* t := LintWorkflowTemplate ctx r in ret (Template_response t)
  end.

(** ** Vocabulary of the statements *)

(** The [Namespace] field of a request. *)
Definition request_Namespace (req : Request) : string :=
  match req with
  | Create_request r | Lint_request r => create_Namespace r
  | Get_request r => get_Namespace r
  | List_request r => list_Namespace r
  | Delete_request r => delete_Namespace r
  end.

(** The calls made between two worlds of one run. *)
Definition fresh (before after : World) : list Call :=
  drop (length (calls before)) (calls after).

(** The namespace a call is addressed to, for the calls that reach the
    template collection of a namespace. *)
Definition call_namespace (c : Call) : option string :=
  match c with
  | ValidateWorkflowTemplate_call _ ns _ _ | Create_call _ ns _
  | Get_call _ ns _ | List_call _ ns | Delete_call _ ns _ => Some ns
  | _ => None
  end.

(** The configuration handed to a client constructor. *)
Definition constructed_with (c : Call) : option rest_Config :=
  match c with
  | wfclientset_NewForConfig_call cfg | kubernetes_NewForConfig_call cfg => Some cfg
  | _ => None
  end.

(** The configuration printed by a log call. *)
Definition logged_config (c : Call) : option rest_Config :=
  match c with
  | log_Errorf _ cfg _ => Some cfg
  | _ => None
  end.

(** Calls that write to the store. *)
Definition is_write (c : Call) : bool :=
  match c with
  | Create_call _ _ _ | Delete_call _ _ _ => true
  | _ => false
  end.

(** The value of the local variable [bearerToken] of [GetWFClient]. *)
Definition attached_token (ctx : Context) : string :=
  let md := (metadata_FromIncomingContext ctx).1 in
  if decide (0 < length (MD_Get md AUTH_TOKEN))
  then index0 (MD_Get md AUTH_TOKEN) else "".

(** The world after the calls [l] were made and nothing else happened. *)
Definition add_calls (w : World) (l : list Call) : World :=
  {| self := self w; cluster := cluster w; calls := calls w ++ l |}.

(** Redaction, as a property of one run of [GetWFClient]: no configuration
    handed to the logger carries the bearer token of the request. *)
Definition token_kept_out_of_log (ctx : Context) (w : World) : Prop :=
  ∀ c cfg, c ∈ fresh w (GetWFClient ctx w).2 →
           logged_config c = Some cfg →
           BearerToken cfg ≠ attached_token ctx.

(** Create and Lint agree on whether a request is rejected. *)
Definition same_rejections (ctx : Context)
    (req : WorkflowTemplateCreateRequest) (w : World) : Prop :=
  is_Err (CreateWorkflowTemplate ctx req w).1 = true ↔
  is_Err (LintWorkflowTemplate ctx req w).1 = true.

(** The clientset through which a call reaches the template collection. *)
Definition call_client (c : Call) : option wf_Clientset :=
  match c with
  | ValidateWorkflowTemplate_call cl _ _ _ | Create_call cl _ _
  | Get_call cl _ _ | List_call cl _ | Delete_call cl _ _ => Some cl
  | _ => None
  end.
End Server.

(** ** A small platform to run the methods on

    Templates are a name and the names they refer to; the store is a finite
    map from (namespace, name); a configuration blob is [host#token]; a client
    remembers the configuration it was built from. *)

Module Demo.
Record template : Type := { name : string; refs : list string }.

Inductive failure : Type :=
| SyntaxError
| HostMissing
| NotFound (what : string)
| AlreadyExists (what : string)
| Unresolved (what : string).

Definition failure_text (f : failure) : string :=
  match f with
  | SyntaxError => "invalid character in configuration"
  | HostMissing => "host must be a URL or a host:port pair"
  | NotFound n => "workflowtemplates " +:+ n +:+ " not found"
  | AlreadyExists n => "workflowtemplates " +:+ n +:+ " already exists"
  | Unresolved n => "template reference " +:+ n +:+ " not found"
  end.

#[local] Instance domain : Domain := {|
  WorkflowTemplate := template;
  WorkflowTemplateList := list template;
  wf_Clientset := string * string;
  kube_Clientset := string * string;
  ConfigFields := string;
  ConfigFields_zero := "";
  CollabError := failure;
  CollabError_Error := failure_text;
  Cluster := gmap (string * string) template;
|}.

(** Splits [host#token] at the first [#]. *)
Fixpoint split_blob (s : string) : option (string * string) :=
  match s with
  | EmptyString => None
  | String a rest =>
      if Ascii.eqb a (Ascii.ascii_of_nat 35) then Some (EmptyString, rest)
      else match split_blob rest with
           | Some (h, t) => Some (String a h, t)
           | None => None
           end
  end.

Definition unmarshal (s : string) (into : rest_Config) : Result rest_Config :=
  match split_blob s with
  | Some (h, t) => Ok {| BearerToken := t; fields := h |}
  | None => Err (foreign SyntaxError)
  end.

Definition connect (cfg : rest_Config) : Result (string * string) :=
  if decide (fields cfg = "") then Err (foreign HostMissing)
  else Ok (fields cfg, BearerToken cfg).

(** A template is accepted when every reference resolves. *)
Fixpoint first_unresolved (getter : string -> Result (ptr template))
    (names : list string) : option error :=
  match names with
  | [] => None
  | n :: rest =>
      match getter n with
      | Ok (Some _) => first_unresolved getter rest
      | _ => Some (foreign (Unresolved n))
      end
  end.

Definition validator (getter : string -> Result (ptr template))
    (t : ptr template) : option error :=
  match t with
  | Some t => first_unresolved getter (refs t)
  | None => None
  end.

Definition store_create (c : string * string) (ns : string) (t : template)
    (m : gmap (string * string) template)
    : Result (ptr template) * gmap (string * string) template :=
  match m !! (ns, name t) with
  | Some _ => (Err (foreign (AlreadyExists (name t))), m)
  | None => (Ok (Some t), <[(ns, name t) := t]> m)
  end.

Definition store_get (c : string * string) (ns n : string)
    (m : gmap (string * string) template) : Result (ptr template) :=
  match m !! (ns, n) with
  | Some t => Ok (Some t)
  | None => Err (foreign (NotFound n))
  end.

Definition store_list (c : string * string) (ns : string)
    (m : gmap (string * string) template) : Result (ptr (list template)) :=
  Ok (Some (omap (fun kv => if decide (kv.1.1 = ns) then Some kv.2 else None)
                 (map_to_list m))).

Definition store_delete (c : string * string) (ns n : string)
    (m : gmap (string * string) template)
    : option error * gmap (string * string) template :=
  match m !! (ns, n) with
  | Some _ => (None, delete (ns, n) m)
  | None => (Some (foreign (NotFound n)), m)
  end.

#[local] Instance platform : Collaborators := {|
  CLIENT_REST_CONFIG := "client-rest-config";
  AUTH_TOKEN := "authorization";
  json_Unmarshal := unmarshal;
  wfclientset_NewForConfig := connect;
  kubernetes_NewForConfig := connect;
  validate_ValidateWorkflowTemplate := validator;
  backend_Create := store_create;
  backend_Get := store_get;
  backend_List := store_list;
  backend_Delete := store_delete;
|}.

Definition failed (f : failure) : error := foreign f.

(** The body of a Create or Lint request. *)
Definition submit (ns : string) (t : option template)
    : WorkflowTemplateCreateRequest :=
  {| create_Namespace := ns; create_Template := t |}.

Definition config (host token : string) : rest_Config :=
  {| BearerToken := token; fields := host |}.

Definition shared_wf : string * string := ("in-cluster", "service-account").
Definition shared_kube : string * string := ("in-cluster", "service-account").

Definition server (auth : bool) : WorkflowTemplateServer :=
  NewWorkflowTemplateServer "ns-a" shared_wf shared_kube auth.

Definition T1 : template := {| name := "T1"; refs := [] |}.
Definition T2 : template := {| name := "T2"; refs := ["T1"] |}.

(** A world with no call made yet: [T1] is stored in namespace [ns-a]. *)
Definition world (auth : bool) : World :=
  {| self := server auth;
     cluster := {[ ("ns-a", "T1") := T1 ]};
     calls := [] |}.

Definition with_metadata (entries : list (string * list string)) : Context :=
  {| incoming := Some (list_to_map entries) |}.

Definition no_metadata : Context := {| incoming := None |}.

(** Blob and token both attached; the blob embeds another token. *)
Definition both : Context :=
  with_metadata [("client-rest-config", ["https://k8s:6443#embedded"]);
                 ("authorization", ["s3cr3t"])].

(** Only the blob is attached. *)
Definition blob_only : Context :=
  with_metadata [("client-rest-config", ["https://k8s:6443#embedded"])].

(** Only a token is attached. *)
Definition token_only : Context :=
  with_metadata [("authorization", ["s3cr3t"])].

(** A blob without host, so that client construction fails. *)
Definition hostless : Context :=
  with_metadata [("client-rest-config", ["#embedded"]);
                 ("authorization", ["s3cr3t"])].

(** Like [both], with further values under the two keys and a further key. *)
Definition both_and_more : Context :=
  with_metadata [("client-rest-config", ["https://k8s:6443#embedded"; "https://other:6443#x"]);
                 ("authorization", ["s3cr3t"; "t0k3n"]);
                 ("user-agent", ["argo"])].

(** A blob without separator, which the decoder refuses. *)
Definition malformed : Context :=
  with_metadata [("client-rest-config", ["not a configuration"]);
                 ("authorization", ["s3cr3t"])].

(** The client the constructors build for [both]. *)
Definition per_request_client : string * string := ("https://k8s:6443", "s3cr3t").

(** Bodies of Get, List and Delete requests in the default namespace. *)
Definition fetch (n : string) : WorkflowTemplateGetRequest :=
  {| get_Namespace := ""; get_TemplateName := n |}.
Definition enumerate : WorkflowTemplateListRequest := {| list_Namespace := "" |}.
Definition remove (n : string) : WorkflowTemplateDeleteRequest :=
  {| delete_Namespace := ""; delete_TemplateName := n |}.
End Demo.

(** * Properties *)

Section Properties.
Context {dom : Domain} {plat : Collaborators}.

(** ** Running a method by hand *)

Ltac open_client :=
  unfold GetWFClient, new_wfClientset, new_kubeClientset, bind, ret, fail,
    receiver, call, of_Result, emit, fresh, attached_token in *;
  simpl in *.

Ltac open_operations :=
  unfold serve, CreateWorkflowTemplate, GetWorkflowTemplate,
    ListWorkflowTemplates, DeleteWorkflowTemplate, LintWorkflowTemplate,
    ValidateWorkflowTemplate, WorkflowTemplates_Create, WorkflowTemplates_Get,
    WorkflowTemplates_List, WorkflowTemplates_Delete, bind, ret, fail,
    receiver, call, of_Result, emit, fresh in *;
  simpl in *.

Ltac branches := repeat (case_match; simplify_eq/=).

(** Two results recorded for the same collaborator call are the same. *)
Ltac agree :=
  repeat match goal with
         | H1 : ?x = _, H2 : ?x = _ |- _ => rewrite H1 in H2; simplify_eq/=
         end.

(** [GetWFClient] touches neither the receiver nor the store, and the only
    calls it makes are to the client constructors and to the logger. *)
Lemma GetWFClient_frame (ctx : Context) (w : World) :
  self (GetWFClient ctx w).2 = self w ∧
  cluster (GetWFClient ctx w).2 = cluster w ∧
  ∃ l, calls (GetWFClient ctx w).2 = calls w ++ l ∧
       Forall (fun c => call_namespace c = None ∧ is_write c = false) l.
Proof.
  destruct w as [s st cs]. split_and!; [by open_client; branches..|].
  open_client; branches;
    try (by exists []; rewrite app_nil_r);
    rewrite <- ?app_assoc; eexists; (split; [done|]);
    repeat constructor.
Qed.

(** Splits on the outcome of the client resolution that opens every
    operation, keeping what [GetWFClient_frame] says of the world it
    leaves. *)
Ltac resolve ctx w :=
  let Hself := fresh "Hself" in
  let Hstore := fresh "Hstore" in
  let Hcalls := fresh "Hcalls" in
  let Hquiet := fresh "Hquiet" in
  let l := fresh "l" in
  let Hget := fresh "Hget" in
  destruct (GetWFClient_frame ctx w) as (Hself & Hstore & l & Hcalls & Hquiet);
  destruct (GetWFClient ctx w) as [[[? ?]|?] [? ? ?]] eqn:Hget;
  destruct w as [? ? ?]; simpl in *; subst.

(** Every operation only appends to the list of calls. *)
Lemma serve_extends (ctx : Context) (req : Request) (w : World) :
  calls (serve ctx req w).2 = calls w ++ fresh w (serve ctx req w).2.
Proof.
  destruct req; open_operations; resolve ctx w; branches;
    rewrite <- ?app_assoc, drop_app_length; done.
Qed.

(** What [GetWFClient] does in per-request-auth mode once a configuration
    blob is found in the metadata. *)
Lemma GetWFClient_auth (ctx : Context) (w : World) (blob : string)
    (more : list string) :
  enableClientAuth (self w) = true →
  MD_Get (metadata_FromIncomingContext ctx).1 CLIENT_REST_CONFIG = blob :: more →
  GetWFClient ctx w =
    match json_Unmarshal blob rest_Config_zero with
    | Err e => (Err e, w)
    | Ok cfg0 =>
        let cfg := set_BearerToken cfg0 (attached_token ctx) in
        match wfclientset_NewForConfig cfg with
        | Err e =>
            (Err e, add_calls w [wfclientset_NewForConfig_call cfg;
                                 log_Errorf wf_format cfg e])
        | Ok c =>
            match kubernetes_NewForConfig cfg with
            | Err e =>
                (Err e, add_calls w [wfclientset_NewForConfig_call cfg;
                                     kubernetes_NewForConfig_call cfg;
                                     log_Errorf kube_format cfg e])
            | Ok k =>
                (Ok (c, k), add_calls w [wfclientset_NewForConfig_call cfg;
                                         kubernetes_NewForConfig_call cfg])
            end
        end
    end.
Proof.
  intros Hon Hblob. destruct w as [s st cs]. simpl in Hon.
  unfold GetWFClient, add_calls, attached_token, new_wfClientset,
    new_kubeClientset, bind, ret, fail, receiver, call, of_Result, emit.
  simpl. rewrite Hon, Hblob. simpl.
  change (index0 (blob :: more)) with blob.
  branches; rewrite <- ?app_assoc; done.
Qed.

(** The other two ways through [GetWFClient] make no call at all. *)
Lemma GetWFClient_quiet (ctx : Context) (w : World) :
  enableClientAuth (self w) = false ∨
  MD_Get (metadata_FromIncomingContext ctx).1 CLIENT_REST_CONFIG = [] →
  (GetWFClient ctx w).2 = w.
Proof.
  destruct w as [s st cs]. intros [Hoff|Hnone]; simpl in *;
    unfold GetWFClient, bind, ret, fail, receiver; simpl.
  - by rewrite Hoff.
  - rewrite Hnone. by destruct (enableClientAuth s).
Qed.

Lemma fresh_add_calls (w : World) (l : list Call) : fresh w (add_calls w l) = l.
Proof. unfold fresh, add_calls. simpl. apply drop_app_length. Qed.

Lemma fresh_same (w : World) : fresh w w = [].
Proof. apply drop_all. Qed.

(** ** Claims *)

(** C1. With [enableClientAuth] false, [GetWFClient] returns the server's
    stored [wfClientset] and [kubeClientset] with no error, whatever the
    metadata of the request context is; it makes no call and changes
    nothing. *)
Theorem GetWFClient_shared_pair (ctx : Context) (w : World) :
  enableClientAuth (self w) = false →
  GetWFClient ctx w = (Ok (wfClientset (self w), kubeClientset (self w)), w).
Proof. intros Hoff. unfold GetWFClient, bind, receiver, ret. by rewrite Hoff. Qed.

(** C7. In per-request-auth mode, when the metadata holds no value under
    the connection-configuration key, [GetWFClient] fails with the
    missing-credentials error and returns no client pair; each of the five
    operations returns that same error and leaves the world as it was: no
    call is made and the store is untouched. *)
Theorem missing_credentials (ctx : Context) (req : Request) (w : World) :
  enableClientAuth (self w) = true →
  MD_Get (metadata_FromIncomingContext ctx).1 CLIENT_REST_CONFIG = [] →
  GetWFClient ctx w = (Err (errors_New "Client kubeconfig is not found"), w) ∧
  serve ctx req w = (Err (errors_New "Client kubeconfig is not found"), w).
Proof.
  intros Hon Hmd.
  assert (GetWFClient ctx w = (Err (errors_New "Client kubeconfig is not found"), w)) as Hget.
  { unfold GetWFClient, bind, receiver, fail. by rewrite Hon, Hmd. }
  split; [done|].
  destruct req; unfold serve, CreateWorkflowTemplate, GetWorkflowTemplate,
    ListWorkflowTemplates, DeleteWorkflowTemplate, LintWorkflowTemplate;
    unfold bind at 1 2; by rewrite Hget.
Qed.

(** C10. No operation writes to the [WorkflowTemplateServer] it is called
    on: after [GetWFClient] and after each of the five operations, on
    success and on every error path, the default namespace, the two shared
    clientsets and the [enableClientAuth] flag are what they were. *)
Theorem server_state_unchanged (ctx : Context) (req : Request) (w : World) :
  self (GetWFClient ctx w).2 = self w ∧
  self (serve ctx req w).2 = self w.
Proof.
  split; [apply GetWFClient_frame|].
  destruct req; open_operations; resolve ctx w; by branches.
Qed.

Lemma attached_token_first (ctx : Context) (tok : string) (more : list string) :
  MD_Get (metadata_FromIncomingContext ctx).1 AUTH_TOKEN = tok :: more →
  attached_token ctx = tok.
Proof.
  intros Htok. unfold attached_token. simpl. by rewrite Htok.
Qed.

Lemma attached_token_absent (ctx : Context) :
  MD_Get (metadata_FromIncomingContext ctx).1 AUTH_TOKEN = [] →
  attached_token ctx = "".
Proof.
  intros Htok. unfold attached_token. simpl. by rewrite Htok.
Qed.

(** Whatever the metadata, a configuration reaches a client constructor or
    the logger only with its [BearerToken] field set to the local variable
    [bearerToken]. *)
Lemma GetWFClient_token (ctx : Context) (w : World) (c : Call)
    (cfg : rest_Config) :
  c ∈ fresh w (GetWFClient ctx w).2 →
  constructed_with c = Some cfg ∨ logged_config c = Some cfg →
  BearerToken cfg = attached_token ctx.
Proof.
  destruct (enableClientAuth (self w)) eqn:Hon;
    [|rewrite GetWFClient_quiet, fresh_same by auto; by intros ?%elem_of_nil].
  destruct (MD_Get (metadata_FromIncomingContext ctx).1 CLIENT_REST_CONFIG)
    as [|blob more] eqn:Hblob;
    [rewrite GetWFClient_quiet, fresh_same by auto; by intros ?%elem_of_nil|].
  rewrite (GetWFClient_auth ctx w blob more Hon Hblob).
  branches; rewrite ?fresh_add_calls, ?fresh_same; intros Hin Hc;
    decompose_list_elem_of; subst c; simpl in Hc; by destruct Hc; simplify_eq.
Qed.

(** C2. In per-request-auth mode, when the metadata carries both a
    configuration blob and a bearer token, every configuration handed to a
    client constructor has the attached token as its [BearerToken]; the
    first constructor is called on the parsed blob with that one field
    replaced, and a returned client pair was built from exactly that
    configuration.  The token inside the blob plays no part. *)
Theorem bearer_token_overrides (ctx : Context) (w : World)
    (blob tok : string) (more more' : list string) :
  enableClientAuth (self w) = true →
  MD_Get (metadata_FromIncomingContext ctx).1 CLIENT_REST_CONFIG = blob :: more →
  MD_Get (metadata_FromIncomingContext ctx).1 AUTH_TOKEN = tok :: more' →
  (∀ c cfg, c ∈ fresh w (GetWFClient ctx w).2 →
            constructed_with c = Some cfg → BearerToken cfg = tok) ∧
  (∀ cfg0, json_Unmarshal blob rest_Config_zero = Ok cfg0 →
     ∃ l, fresh w (GetWFClient ctx w).2 =
          wfclientset_NewForConfig_call
            {| BearerToken := tok; fields := fields cfg0 |} :: l) ∧
  (∀ c k, (GetWFClient ctx w).1 = Ok (c, k) →
     ∃ cfg0, json_Unmarshal blob rest_Config_zero = Ok cfg0 ∧
       let cfg := {| BearerToken := tok; fields := fields cfg0 |} in
       wfclientset_NewForConfig cfg = Ok c ∧
       kubernetes_NewForConfig cfg = Ok k ∧
       fresh w (GetWFClient ctx w).2 =
         [wfclientset_NewForConfig_call cfg; kubernetes_NewForConfig_call cfg]).
Proof.
  intros Hon Hblob Htok. split_and!.
  - intros c cfg Hin Hc.
    rewrite <- (attached_token_first ctx tok more' Htok).
    eapply GetWFClient_token; eauto.
  - intros cfg0 Hparse.
    rewrite (GetWFClient_auth ctx w blob more Hon Hblob), Hparse.
    rewrite (attached_token_first ctx tok more' Htok).
    unfold set_BearerToken. simpl.
    branches; rewrite fresh_add_calls; eauto.
  - intros c k.
    rewrite (GetWFClient_auth ctx w blob more Hon Hblob).
    rewrite (attached_token_first ctx tok more' Htok).
    unfold set_BearerToken. simpl.
    destruct (json_Unmarshal blob rest_Config_zero) as [cfg0|e]; [|done].
    branches; intros ?; simplify_eq.
    exists cfg0. by rewrite fresh_add_calls.
Qed.

(** C9. In per-request-auth mode, when the blob parses and no bearer-token
    metadata is attached, the configuration handed to the client
    constructors is the parsed blob with [BearerToken] set to the empty
    string, whatever token the blob embedded: the assignment to the field
    is not guarded by the presence of a token. *)
Theorem absent_token_erases_embedded (ctx : Context) (w : World)
    (blob : string) (more : list string) (cfg0 : rest_Config) :
  enableClientAuth (self w) = true →
  MD_Get (metadata_FromIncomingContext ctx).1 CLIENT_REST_CONFIG = blob :: more →
  MD_Get (metadata_FromIncomingContext ctx).1 AUTH_TOKEN = [] →
  json_Unmarshal blob rest_Config_zero = Ok cfg0 →
  (∃ l, fresh w (GetWFClient ctx w).2 =
        wfclientset_NewForConfig_call
          {| BearerToken := ""; fields := fields cfg0 |} :: l) ∧
  (∀ c cfg, c ∈ fresh w (GetWFClient ctx w).2 →
            constructed_with c = Some cfg →
            cfg = {| BearerToken := ""; fields := fields cfg0 |}).
Proof.
  intros Hon Hblob Htok Hparse.
  rewrite (GetWFClient_auth ctx w blob more Hon Hblob), Hparse.
  rewrite (attached_token_absent ctx Htok).
  unfold set_BearerToken. simpl.
  branches; rewrite fresh_add_calls; (split; [eauto|]);
    intros c cfg Hin Hc; decompose_list_elem_of; by simplify_eq/=.
Qed.

(** The calls of an operation are those of its client resolution followed
    by its own. *)
Lemma drop_resolved (cs l l' : list Call) :
  drop (length cs) ((cs ++ l) ++ l') = l ++ l'.
Proof. by rewrite <- app_assoc, drop_app_length. Qed.

Lemma drop_resolved_2 (cs l : list Call) (a b : Call) :
  drop (length cs) (((cs ++ l) ++ [a]) ++ [b]) = l ++ [a; b].
Proof. by rewrite <- !app_assoc, drop_app_length. Qed.

Lemma quiet_member (l : list Call) (c : Call) :
  Forall (fun c => call_namespace c = None ∧ is_write c = false) l →
  c ∈ l → call_namespace c = None ∧ is_write c = false.
Proof. intros Hl Hc. by eapply Forall_forall in Hl. Qed.

(** C3, as the code has it.  A configuration reaches the logger only from
    [GetWFClient], only after the client constructor named in the message
    failed on that same configuration, and together with the error that
    [GetWFClient] then returns; every failed construction is logged in this
    way; and that configuration carries the bearer token of the request in
    its [BearerToken] field, as the constructor received it.  None of the
    five operations logs anything of its own, so the paths for missing
    credentials, malformed credentials, a missing body, a rejected template
    and backend errors stay silent. *)
Theorem construction_failure_log (ctx : Context) (req : Request) (w : World) :
  (∀ c cfg, c ∈ fresh w (GetWFClient ctx w).2 → logged_config c = Some cfg →
     BearerToken cfg = attached_token ctx ∧
     ∃ err, (GetWFClient ctx w).1 = Err err ∧
       ((c = log_Errorf wf_format cfg err ∧
         wfclientset_NewForConfig_call cfg ∈ fresh w (GetWFClient ctx w).2 ∧
         wfclientset_NewForConfig cfg = Err err) ∨
        (c = log_Errorf kube_format cfg err ∧
         kubernetes_NewForConfig_call cfg ∈ fresh w (GetWFClient ctx w).2 ∧
         kubernetes_NewForConfig cfg = Err err))) ∧
  (∀ cfg err, wfclientset_NewForConfig_call cfg ∈ fresh w (GetWFClient ctx w).2 →
     wfclientset_NewForConfig cfg = Err err →
     log_Errorf wf_format cfg err ∈ fresh w (GetWFClient ctx w).2) ∧
  (∀ cfg err, kubernetes_NewForConfig_call cfg ∈ fresh w (GetWFClient ctx w).2 →
     kubernetes_NewForConfig cfg = Err err →
     log_Errorf kube_format cfg err ∈ fresh w (GetWFClient ctx w).2) ∧
  omap logged_config (fresh w (serve ctx req w).2) =
    omap logged_config (fresh w (GetWFClient ctx w).2).
Proof.
  split_and!.
  - intros c cfg Hin Hc. split; [eapply GetWFClient_token; eauto|].
    revert Hin.
    destruct (enableClientAuth (self w)) eqn:Hon;
      [|rewrite GetWFClient_quiet, fresh_same by auto; by intros ?%elem_of_nil].
    destruct (MD_Get (metadata_FromIncomingContext ctx).1 CLIENT_REST_CONFIG)
      as [|blob more] eqn:Hblob;
      [rewrite GetWFClient_quiet, fresh_same by auto; by intros ?%elem_of_nil|].
    rewrite (GetWFClient_auth ctx w blob more Hon Hblob).
    branches; rewrite ?fresh_add_calls, ?fresh_same; intros Hin;
      decompose_list_elem_of; subst c; simplify_eq/=;
      eexists; (split; [done|]); set_solver.
  - intros cfg err.
    destruct (enableClientAuth (self w)) eqn:Hon;
      [|rewrite GetWFClient_quiet, fresh_same by auto; by intros ?%elem_of_nil].
    destruct (MD_Get (metadata_FromIncomingContext ctx).1 CLIENT_REST_CONFIG)
      as [|blob more] eqn:Hblob;
      [rewrite GetWFClient_quiet, fresh_same by auto; by intros ?%elem_of_nil|].
    rewrite (GetWFClient_auth ctx w blob more Hon Hblob).
    branches; rewrite ?fresh_add_calls, ?fresh_same; intros Hin Hfail;
      decompose_list_elem_of; simplify_eq/=; agree; set_solver.
  - intros cfg err.
    destruct (enableClientAuth (self w)) eqn:Hon;
      [|rewrite GetWFClient_quiet, fresh_same by auto; by intros ?%elem_of_nil].
    destruct (MD_Get (metadata_FromIncomingContext ctx).1 CLIENT_REST_CONFIG)
      as [|blob more] eqn:Hblob;
      [rewrite GetWFClient_quiet, fresh_same by auto; by intros ?%elem_of_nil|].
    rewrite (GetWFClient_auth ctx w blob more Hon Hblob).
    branches; rewrite ?fresh_add_calls, ?fresh_same; intros Hin Hfail;
      decompose_list_elem_of; simplify_eq/=; agree; set_solver.
  - destruct req; open_operations; resolve ctx w; branches;
      rewrite ?drop_resolved_2, ?drop_resolved, ?drop_app_length, ?omap_app;
      simpl; by rewrite ?app_nil_r.
Qed.

(** C5. In each of the five operations every call addressed to a
    namespace (the validator's getter, create, get, list, delete) goes to
    the namespace field of the request when that field is not empty, and to
    the namespace configured on the server when it is; and once the client
    pair is resolved (and, for Create, a template is supplied) such a call
    is made. *)
Theorem namespace_override_else_default (ctx : Context) (req : Request)
    (w : World) :
  (request_Namespace req ≠ "" →
     ∀ c ns, c ∈ fresh w (serve ctx req w).2 → call_namespace c = Some ns →
             ns = request_Namespace req) ∧
  (request_Namespace req = "" →
     ∀ c ns, c ∈ fresh w (serve ctx req w).2 → call_namespace c = Some ns →
             ns = namespace (self w)) ∧
  (∀ pair, (GetWFClient ctx w).1 = Ok pair →
     (∀ r, req = Create_request r → is_Some (create_Template r)) →
     ∃ c, c ∈ fresh w (serve ctx req w).2 ∧ is_Some (call_namespace c)).
Proof.
  split_and!.
  - intros Hfield c ns.
    destruct req; open_operations; resolve ctx w; branches;
      rewrite ?drop_resolved_2, ?drop_resolved, ?drop_app_length;
      intros Hin Hns; decompose_list_elem_of; simplify_eq/=;
      try done;
      match goal with
      | Hq : Forall _ ?l, Hc : _ ∈ ?l |- _ =>
          destruct (quiet_member _ _ Hq Hc); congruence
      end.
  - intros Hfield c ns.
    destruct req; open_operations; resolve ctx w; branches;
      rewrite ?drop_resolved_2, ?drop_resolved, ?drop_app_length;
      intros Hin Hns; decompose_list_elem_of; simplify_eq/=;
      try done;
      match goal with
      | Hq : Forall _ ?l, Hc : _ ∈ ?l |- _ =>
          destruct (quiet_member _ _ Hq Hc); congruence
      end.
  - intros pair Hpair Hbody.
    destruct req as [r| | | |r];
      [destruct (Hbody r eq_refl) as [t Ht]|..];
      open_operations; resolve ctx w; simplify_eq/=; branches;
      rewrite ?drop_resolved_2, ?drop_resolved;
      eexists; (split; [apply elem_of_app; right; apply list_elem_of_here|]);
      by eexists.
Qed.

(** C8. Lint never writes: whatever the request, the store after
    [LintWorkflowTemplate] is the store before it, no create or delete call
    is made, and so a list of any namespace through any client gives what
    it gave before.  A returned template is the one of the request, as it
    came in, and Lint does return it whenever the client pair is resolved
    and the validator accepts. *)
Theorem lint_never_persists (ctx : Context)
    (req : WorkflowTemplateCreateRequest) (w : World) :
  cluster (LintWorkflowTemplate ctx req w).2 = cluster w ∧
  (∀ c, c ∈ fresh w (LintWorkflowTemplate ctx req w).2 → is_write c = false) ∧
  (∀ cl ns, backend_List cl ns (cluster (LintWorkflowTemplate ctx req w).2) =
            backend_List cl ns (cluster w)) ∧
  (∀ t, (LintWorkflowTemplate ctx req w).1 = Ok t → t = create_Template req) ∧
  (∀ pair, (GetWFClient ctx w).1 = Ok pair →
     validate_ValidateWorkflowTemplate
       (WrapWorkflowTemplateInterface pair.1
          (if decide (create_Namespace req ≠ "")
           then create_Namespace req else namespace (self w))
          (cluster w))
       (create_Template req) = None →
     (LintWorkflowTemplate ctx req w).1 = Ok (create_Template req)).
Proof.
  assert (cluster (LintWorkflowTemplate ctx req w).2 = cluster w) as Hstore.
  { open_operations; resolve ctx w; by branches. }
  split_and!; [done| |by intros; rewrite Hstore|..].
  - intros c. open_operations; resolve ctx w; branches;
      rewrite ?drop_resolved, ?drop_app_length;
      intros Hin; decompose_list_elem_of; simplify_eq/=; try done;
      match goal with
      | Hq : Forall _ ?l, Hc : _ ∈ ?l |- _ =>
          by destruct (quiet_member _ _ Hq Hc)
      end.
  - intros t. clear Hstore. open_operations; resolve ctx w; branches; congruence.
  - intros pair. clear Hstore.
    open_operations; resolve ctx w; branches; intros; simplify_eq/=;
      congruence.
Qed.

(** C6. Create validates before it persists.  Once the client pair is
    resolved and a template is supplied the validator is called on that
    template, and the verdict on record is the validator's own.  When the
    verdict is an error, Create returns that error wrapped in its
    validation-failure message, the store is left as it was and no write is
    issued.  A create call only ever appears as the last call of the run,
    directly after a validation of the same template, through the same
    client and namespace, that returned no error; and without a create call
    the store does not change. *)
Theorem create_validates_before_persisting (ctx : Context)
    (req : WorkflowTemplateCreateRequest) (w : World) :
  (∀ pair t, (GetWFClient ctx w).1 = Ok pair → create_Template req = Some t →
     ∃ ns v, ValidateWorkflowTemplate_call pair.1 ns (Some t) v
             ∈ fresh w (CreateWorkflowTemplate ctx req w).2) ∧
  (∀ c ns t v, ValidateWorkflowTemplate_call c ns t v
               ∈ fresh w (CreateWorkflowTemplate ctx req w).2 →
     t = create_Template req ∧ is_Some t ∧
     v = validate_ValidateWorkflowTemplate
           (WrapWorkflowTemplateInterface c ns (cluster w)) t) ∧
  (∀ c ns t e, ValidateWorkflowTemplate_call c ns t (Some e)
               ∈ fresh w (CreateWorkflowTemplate ctx req w).2 →
     (CreateWorkflowTemplate ctx req w).1 =
       Err (fmt_Errorf_v "Failed to create workflow template: " e) ∧
     cluster (CreateWorkflowTemplate ctx req w).2 = cluster w ∧
     ∀ x, x ∈ fresh w (CreateWorkflowTemplate ctx req w).2 → is_write x = false) ∧
  (∀ c ns t, Create_call c ns t ∈ fresh w (CreateWorkflowTemplate ctx req w).2 →
     ∃ pre, fresh w (CreateWorkflowTemplate ctx req w).2 =
              pre ++ [ValidateWorkflowTemplate_call c ns (Some t) None;
                      Create_call c ns t] ∧
            ∀ x, x ∈ pre → is_write x = false ∧ call_namespace x = None) ∧
  ((∀ x, x ∈ fresh w (CreateWorkflowTemplate ctx req w).2 → is_write x = false) →
     cluster (CreateWorkflowTemplate ctx req w).2 = cluster w).
Proof.
  split_and!.
  - intros pair t Hpair Ht.
    open_operations; resolve ctx w; simplify_eq/=; rewrite Ht; branches;
      rewrite ?drop_resolved_2, ?drop_resolved;
      do 2 eexists; apply elem_of_app; right; apply list_elem_of_here.
  - intros c ns t v.
    open_operations; resolve ctx w; branches;
      rewrite ?drop_resolved_2, ?drop_resolved, ?drop_app_length;
      intros Hin; decompose_list_elem_of; simplify_eq/=; eauto;
      match goal with
      | Hq : Forall _ ?l, Hc : _ ∈ ?l |- _ =>
          by destruct (quiet_member _ _ Hq Hc)
      end.
  - intros c ns t e.
    open_operations; resolve ctx w; branches;
      rewrite ?drop_resolved_2, ?drop_resolved, ?drop_app_length;
      intros Hin; decompose_list_elem_of; simplify_eq/=;
      try match goal with
      | Hq : Forall _ ?l, Hc : ValidateWorkflowTemplate_call _ _ _ _ ∈ ?l |- _ =>
          by destruct (quiet_member _ _ Hq Hc)
      end;
      agree; split_and!; try done;
      intros x Hx; decompose_list_elem_of; simplify_eq/=; try done;
      by destruct (quiet_member _ _ Hquiet ltac:(eassumption)).
  - intros c ns t.
    open_operations; resolve ctx w; branches;
      rewrite ?drop_resolved_2, ?drop_resolved, ?drop_app_length;
      intros Hin; decompose_list_elem_of; simplify_eq/=;
      try match goal with
      | Hq : Forall _ ?l, Hc : Create_call _ _ _ ∈ ?l |- _ =>
          by destruct (quiet_member _ _ Hq Hc)
      end;
      eexists; (split; [done|]);
      intros x Hx; by destruct (quiet_member _ _ Hquiet Hx).
  - open_operations; resolve ctx w; branches; try done;
      rewrite ?drop_resolved_2; intros Hnone;
      match type of Hnone with
      | context [Create_call ?c ?ns ?t] =>
          specialize (Hnone (Create_call c ns t))
      end;
      discriminate Hnone; apply elem_of_app; right; set_solver.
Qed.

(** On a request without template the two operations part ways: Create
    stops at its guard, right after the client resolution, while Lint hands
    the nil template to the validator. *)
Lemma nil_template_paths (ctx : Context) (req : WorkflowTemplateCreateRequest)
    (w w1 : World) (pair : wf_Clientset * kube_Clientset) :
  create_Template req = None →
  GetWFClient ctx w = (Ok pair, w1) →
  CreateWorkflowTemplate ctx req w =
    (Err (errors_New "WorkflowTemplate is not found in Request body"), w1) ∧
  ∃ ns v, fresh w1 (LintWorkflowTemplate ctx req w).2 =
          [ValidateWorkflowTemplate_call pair.1 ns None v].
Proof.
  intros Hnil Hget. open_operations. rewrite Hget, Hnil. simpl.
  split; [done|].
  case_match; simpl; rewrite drop_app_length; by do 2 eexists.
Qed.

(** C4, as the code has it.  For a request that carries a template, a
    request rejected by Lint is rejected by Create; a request that Create
    rejects and Lint accepts is one whose template passed validation and
    whose create call, the last call of the run, was refused by the backend,
    Create returning the backend's error; so the two operations reject the
    same requests whenever the backend refuses no create of that
    template. *)
Theorem create_rejects_what_lint_rejects (ctx : Context)
    (req : WorkflowTemplateCreateRequest) (w : World) (t : WorkflowTemplate) :
  create_Template req = Some t →
  (is_Err (LintWorkflowTemplate ctx req w).1 = true →
   is_Err (CreateWorkflowTemplate ctx req w).1 = true) ∧
  (is_Err (CreateWorkflowTemplate ctx req w).1 = true →
   is_Err (LintWorkflowTemplate ctx req w).1 = false →
   ∃ c ns e,
     last (fresh w (CreateWorkflowTemplate ctx req w).2) = Some (Create_call c ns t) ∧
     (backend_Create c ns t (cluster w)).1 = Err e ∧
     (CreateWorkflowTemplate ctx req w).1 = Err e) ∧
  ((∀ c ns, is_Err (backend_Create c ns t (cluster w)).1 = false) →
   same_rejections ctx req w).
Proof.
  intros Ht. unfold same_rejections. split_and!.
  - open_operations; resolve ctx w; rewrite ?Ht; branches; agree; done.
  - open_operations; resolve ctx w; rewrite ?Ht; branches; agree; try done;
      intros _ _; do 3 eexists;
      rewrite <- !app_assoc, drop_app_length, !app_assoc, last_snoc;
      by split_and!.
  - intros Hbackend.
    open_operations; resolve ctx w; rewrite ?Ht; branches; agree; try done;
      match goal with
      | Hc : (backend_Create ?c ?ns t _).1 = Err _ |- _ =>
          specialize (Hbackend c ns); rewrite Hc in Hbackend; done
      end.
Qed.

(** The path of [GetWFClient] for a request without configuration entry. *)
Lemma missing_credentials_path (ctx : Context) (w : World) :
  enableClientAuth (self w) = true →
  MD_Get (metadata_FromIncomingContext ctx).1 CLIENT_REST_CONFIG = [] →
  GetWFClient ctx w = (Err (errors_New "Client kubeconfig is not found"), w) ∧
  fresh w (GetWFClient ctx w).2 = [].
Proof.
  intros Hon Hmd.
  assert (GetWFClient ctx w = (Err (errors_New "Client kubeconfig is not found"), w)) as ->.
  { unfold GetWFClient, bind, receiver, fail. by rewrite Hon, Hmd. }
  by rewrite fresh_same.
Qed.

(** The four shapes a run of [GetWFClient] can take in terms of calls. *)
Lemma GetWFClient_shapes (ctx : Context) (w : World) :
  fresh w (GetWFClient ctx w).2 = [] ∨
  ∃ cfg,
    (∃ e, wfclientset_NewForConfig cfg = Err e ∧
          fresh w (GetWFClient ctx w).2 =
            [wfclientset_NewForConfig_call cfg; log_Errorf wf_format cfg e]) ∨
    (∃ c, wfclientset_NewForConfig cfg = Ok c ∧
       ((∃ e, kubernetes_NewForConfig cfg = Err e ∧
              fresh w (GetWFClient ctx w).2 =
                [wfclientset_NewForConfig_call cfg;
                 kubernetes_NewForConfig_call cfg;
                 log_Errorf kube_format cfg e]) ∨
        (∃ k, kubernetes_NewForConfig cfg = Ok k ∧
              fresh w (GetWFClient ctx w).2 =
                [wfclientset_NewForConfig_call cfg;
                 kubernetes_NewForConfig_call cfg]))).
Proof.
  destruct (enableClientAuth (self w)) eqn:Hon;
    [|left; by rewrite GetWFClient_quiet, fresh_same by auto].
  destruct (MD_Get (metadata_FromIncomingContext ctx).1 CLIENT_REST_CONFIG)
    as [|blob more] eqn:Hblob;
    [left; by rewrite GetWFClient_quiet, fresh_same by auto|].
  rewrite (GetWFClient_auth ctx w blob more Hon Hblob).
  destruct (json_Unmarshal blob rest_Config_zero) as [cfg0|e];
    [|left; apply fresh_same].
  right. exists (set_BearerToken cfg0 (attached_token ctx)). cbv zeta.
  destruct (wfclientset_NewForConfig _) as [c|e] eqn:Hwf;
    [|left; exists e; simpl; by rewrite fresh_add_calls].
  right. exists c. split; [done|].
  destruct (kubernetes_NewForConfig _) as [k|e] eqn:Hkube;
    [right; exists k|left; exists e]; simpl; by rewrite fresh_add_calls.
Qed.

(** ** Further properties of the methods *)



Lemma quiet_no_client (l : list Call) (c : Call) :
  Forall (fun c => call_namespace c = None ∧ is_write c = false) l →
  c ∈ l → call_client c = None.
Proof.
  intros Hl Hc. destruct (quiet_member _ _ Hl Hc) as [Hns _].
  by destruct c.
Qed.

(** X1. In per-request-auth mode, when the configuration blob does not parse,
    [GetWFClient] returns the parser's error as it is, and so does each of the
    five operations; no constructor is called, nothing is logged, no backend
    call is made and the store is untouched. *)
Theorem malformed_credentials (ctx : Context) (req : Request) (w : World)
    (blob : string) (more : list string) (e : error) :
  enableClientAuth (self w) = true →
  MD_Get (metadata_FromIncomingContext ctx).1 CLIENT_REST_CONFIG = blob :: more →
  json_Unmarshal blob rest_Config_zero = Err e →
  GetWFClient ctx w = (Err e, w) ∧ serve ctx req w = (Err e, w).
Proof.
  intros Hon Hblob Hparse.
  assert (GetWFClient ctx w = (Err e, w)) as Hget
    by by rewrite (GetWFClient_auth ctx w blob more Hon Hblob), Hparse.
  split; [done|].
  destruct req; unfold serve, CreateWorkflowTemplate, GetWorkflowTemplate,
    ListWorkflowTemplates, DeleteWorkflowTemplate, LintWorkflowTemplate;
    unfold bind at 1 2; by rewrite Hget.
Qed.

(** X2. Whatever makes the client resolution fail, each of the five
    operations returns the error of [GetWFClient] unchanged and stops there:
    the world it leaves is the one [GetWFClient] left. *)
Theorem resolution_failure_propagates (ctx : Context) (req : Request)
    (w w1 : World) (e : error) :
  GetWFClient ctx w = (Err e, w1) → serve ctx req w = (Err e, w1).
Proof.
  intros Hget.
  destruct req; unfold serve, CreateWorkflowTemplate, GetWorkflowTemplate,
    ListWorkflowTemplates, DeleteWorkflowTemplate, LintWorkflowTemplate;
    unfold bind at 1 2; by rewrite Hget.
Qed.

(** X3. In per-request-auth mode there is no fall-back to the shared pair: a
    client pair that [GetWFClient] returns is the output of the two
    constructors on the parsed blob of the request with its token field set
    to the request's bearer token, and these two constructor calls are all
    that happened. *)
Theorem per_request_pair_is_constructed (ctx : Context) (w : World)
    (c : wf_Clientset) (k : kube_Clientset) :
  enableClientAuth (self w) = true →
  (GetWFClient ctx w).1 = Ok (c, k) →
  ∃ blob more cfg0,
    MD_Get (metadata_FromIncomingContext ctx).1 CLIENT_REST_CONFIG = blob :: more ∧
    json_Unmarshal blob rest_Config_zero = Ok cfg0 ∧
    wfclientset_NewForConfig (set_BearerToken cfg0 (attached_token ctx)) = Ok c ∧
    kubernetes_NewForConfig (set_BearerToken cfg0 (attached_token ctx)) = Ok k ∧
    fresh w (GetWFClient ctx w).2 =
      [wfclientset_NewForConfig_call (set_BearerToken cfg0 (attached_token ctx));
       kubernetes_NewForConfig_call (set_BearerToken cfg0 (attached_token ctx))].
Proof.
  intros Hon.
  destruct (MD_Get (metadata_FromIncomingContext ctx).1 CLIENT_REST_CONFIG)
    as [|blob more] eqn:Hblob.
  - destruct (missing_credentials_path ctx w Hon Hblob) as [-> _]. done.
  - rewrite (GetWFClient_auth ctx w blob more Hon Hblob).
    destruct (json_Unmarshal blob rest_Config_zero) as [cfg0|e] eqn:Hparse; [|done].
    simpl. branches; intros ?; simplify_eq.
    exists blob, more, cfg0. by rewrite fresh_add_calls.
Qed.

(** X4. The two constructors are called in order and on one configuration:
    all constructor calls of a run receive the same configuration, the
    second constructor is called only after the first one succeeded on it,
    and a run logs at most once. *)
Theorem construction_short_circuits (ctx : Context) (w : World) :
  (∀ c1 c2 cfg1 cfg2,
     c1 ∈ fresh w (GetWFClient ctx w).2 → c2 ∈ fresh w (GetWFClient ctx w).2 →
     constructed_with c1 = Some cfg1 → constructed_with c2 = Some cfg2 →
     cfg1 = cfg2) ∧
  (∀ cfg, kubernetes_NewForConfig_call cfg ∈ fresh w (GetWFClient ctx w).2 →
     is_Err (wfclientset_NewForConfig cfg) = false ∧
     ∃ l, fresh w (GetWFClient ctx w).2 =
          wfclientset_NewForConfig_call cfg :: kubernetes_NewForConfig_call cfg :: l) ∧
  length (omap logged_config (fresh w (GetWFClient ctx w).2)) ≤ 1.
Proof.
  destruct (GetWFClient_shapes ctx w)
    as [->|(cfg & [(e & Hwf & ->)|(c & Hwf & [(e & Hkube & ->)|(k & Hkube & ->)])])].
  - split_and!; [by intros ???? ?%elem_of_nil|by intros ? ?%elem_of_nil|simpl; lia].
  - split_and!; [| |simpl; lia].
    + intros c1 c2 cfg1 cfg2 H1 H2 Hc1 Hc2.
      decompose_list_elem_of; subst; by simplify_eq/=.
    + intros cfg' Hin. decompose_list_elem_of; by simplify_eq/=.
  - split_and!; [| |simpl; lia].
    + intros c1 c2 cfg1 cfg2 H1 H2 Hc1 Hc2.
      decompose_list_elem_of; subst; by simplify_eq/=.
    + intros cfg' Hin. decompose_list_elem_of; simplify_eq/=.
      rewrite Hwf. eauto.
  - split_and!; [| |simpl; lia].
    + intros c1 c2 cfg1 cfg2 H1 H2 Hc1 Hc2.
      decompose_list_elem_of; subst; by simplify_eq/=.
    + intros cfg' Hin. decompose_list_elem_of; simplify_eq/=.
      rewrite Hwf. eauto.
Qed.

(** X5. Only the first value under each of the two metadata keys counts:
    two request contexts whose metadata agree on the first value under the
    configuration key and on the first value under the token key (or have
    none) give the same outcome, whatever else they carry. *)
Theorem only_first_metadata_value_counts (ctx1 ctx2 : Context) (w : World) :
  head (MD_Get (metadata_FromIncomingContext ctx1).1 CLIENT_REST_CONFIG) =
    head (MD_Get (metadata_FromIncomingContext ctx2).1 CLIENT_REST_CONFIG) →
  head (MD_Get (metadata_FromIncomingContext ctx1).1 AUTH_TOKEN) =
    head (MD_Get (metadata_FromIncomingContext ctx2).1 AUTH_TOKEN) →
  GetWFClient ctx1 w = GetWFClient ctx2 w.
Proof.
  intros Hblob Htok. unfold GetWFClient, index0. simpl.
  destruct (MD_Get (metadata_FromIncomingContext ctx1).1 CLIENT_REST_CONFIG),
    (MD_Get (metadata_FromIncomingContext ctx2).1 CLIENT_REST_CONFIG);
    simplify_eq/=; [done|].
  destruct (MD_Get (metadata_FromIncomingContext ctx1).1 AUTH_TOKEN),
    (MD_Get (metadata_FromIncomingContext ctx2).1 AUTH_TOKEN);
    simplify_eq/=; done.
Qed.

(** X6. Get reads and nothing else: the store is left as it was and no
    write is issued; once the client pair is resolved one get call is made,
    for the name of the request; and the outcome of the operation is the
    backend's answer to that call, object or error, handed on as it is. *)
Theorem get_returns_backend_answer (ctx : Context)
    (r : WorkflowTemplateGetRequest) (w : World) :
  cluster (GetWorkflowTemplate ctx r w).2 = cluster w ∧
  (∀ x, x ∈ fresh w (GetWorkflowTemplate ctx r w).2 → is_write x = false) ∧
  (∀ c ns n, Get_call c ns n ∈ fresh w (GetWorkflowTemplate ctx r w).2 →
     n = get_TemplateName r ∧
     (GetWorkflowTemplate ctx r w).1 = backend_Get c ns n (cluster w)) ∧
  (∀ pair, (GetWFClient ctx w).1 = Ok pair →
     ∃ ns, Get_call pair.1 ns (get_TemplateName r)
           ∈ fresh w (GetWorkflowTemplate ctx r w).2).
Proof.
  split_and!.
  - open_operations; resolve ctx w; by branches.
  - intros x. open_operations; resolve ctx w; branches;
      rewrite ?drop_resolved, ?drop_app_length;
      intros Hin; decompose_list_elem_of; simplify_eq/=; try done;
      by destruct (quiet_member _ _ Hquiet ltac:(eassumption)).
  - intros c ns n. open_operations; resolve ctx w; branches;
      rewrite ?drop_resolved, ?drop_app_length;
      intros Hin; decompose_list_elem_of; simplify_eq/=; try done;
      by destruct (quiet_member _ _ Hquiet ltac:(eassumption)).
  - intros pair Hpair. open_operations; resolve ctx w; simplify_eq/=; branches;
      rewrite ?drop_resolved; eexists; apply elem_of_app; right;
      apply list_elem_of_here.
Qed.

(** X7. List reads and nothing else: the store is left as it was and no
    write is issued; once the client pair is resolved one list call is made;
    and the outcome of the operation is the backend's answer to that call,
    handed on as it is. *)
Theorem list_returns_backend_answer (ctx : Context)
    (r : WorkflowTemplateListRequest) (w : World) :
  cluster (ListWorkflowTemplates ctx r w).2 = cluster w ∧
  (∀ x, x ∈ fresh w (ListWorkflowTemplates ctx r w).2 → is_write x = false) ∧
  (∀ c ns, List_call c ns ∈ fresh w (ListWorkflowTemplates ctx r w).2 →
     (ListWorkflowTemplates ctx r w).1 = backend_List c ns (cluster w)) ∧
  (∀ pair, (GetWFClient ctx w).1 = Ok pair →
     ∃ ns, List_call pair.1 ns ∈ fresh w (ListWorkflowTemplates ctx r w).2).
Proof.
  split_and!.
  - open_operations; resolve ctx w; by branches.
  - intros x. open_operations; resolve ctx w; branches;
      rewrite ?drop_resolved, ?drop_app_length;
      intros Hin; decompose_list_elem_of; simplify_eq/=; try done;
      by destruct (quiet_member _ _ Hquiet ltac:(eassumption)).
  - intros c ns. open_operations; resolve ctx w; branches;
      rewrite ?drop_resolved, ?drop_app_length;
      intros Hin; decompose_list_elem_of; simplify_eq/=; try done;
      by destruct (quiet_member _ _ Hquiet ltac:(eassumption)).
  - intros pair Hpair. open_operations; resolve ctx w; simplify_eq/=; branches;
      rewrite ?drop_resolved; eexists; apply elem_of_app; right;
      apply list_elem_of_here.
Qed.

(** X8. Delete acknowledges exactly the deletes the backend accepted: a
    returned acknowledgement carries the name of the request and the status
    [Deleted]; the delete call is for the name of the request, the store
    after the operation is the one the backend left, and the operation
    succeeds when the backend returned no error and otherwise returns the
    backend's error as it is; without a delete call the store does not
    change. *)
Theorem delete_acknowledges (ctx : Context)
    (r : WorkflowTemplateDeleteRequest) (w : World) :
  (∀ resp, (DeleteWorkflowTemplate ctx r w).1 = Ok resp →
     resp = {| TemplateName := delete_TemplateName r; Status := "Deleted" |} ∧
     ∃ c ns, Delete_call c ns (delete_TemplateName r)
             ∈ fresh w (DeleteWorkflowTemplate ctx r w).2 ∧
             (backend_Delete c ns (delete_TemplateName r) (cluster w)).1 = None) ∧
  (∀ c ns n, Delete_call c ns n ∈ fresh w (DeleteWorkflowTemplate ctx r w).2 →
     n = delete_TemplateName r ∧
     cluster (DeleteWorkflowTemplate ctx r w).2 =
       (backend_Delete c ns n (cluster w)).2 ∧
     (DeleteWorkflowTemplate ctx r w).1 =
       match (backend_Delete c ns n (cluster w)).1 with
       | None => Ok {| TemplateName := n; Status := "Deleted" |}
       | Some e => Err e
       end) ∧
  ((∀ x, x ∈ fresh w (DeleteWorkflowTemplate ctx r w).2 → is_write x = false) →
     cluster (DeleteWorkflowTemplate ctx r w).2 = cluster w).
Proof.
  split_and!.
  - intros resp. open_operations; resolve ctx w; branches; intros ?;
      simplify_eq/=; (split; [done|]); do 2 eexists;
      rewrite drop_resolved; (split; [|done]);
      apply elem_of_app; right; apply list_elem_of_here.
  - intros c ns n. open_operations; resolve ctx w; branches;
      rewrite ?drop_resolved, ?drop_app_length;
      intros Hin; decompose_list_elem_of; simplify_eq/=;
      try (by destruct (quiet_member _ _ Hquiet ltac:(eassumption)));
      agree; by rewrite ?H0, ?H1.
  - open_operations; resolve ctx w; branches; try done;
      rewrite ?drop_resolved; intros Hnone;
      match type of Hnone with
      | context [Delete_call ?c ?ns ?n] =>
          specialize (Hnone (Delete_call c ns n))
      end;
      discriminate Hnone; apply elem_of_app; right; set_solver.
Qed.

(** X9. What Create returns after a create call is the backend's answer to
    that call, the stored object or the error, handed on as it is (a backend
    error is not wrapped, unlike a validation error), and the store after the
    operation is the one the backend left. *)
Theorem create_returns_backend_answer (ctx : Context)
    (req : WorkflowTemplateCreateRequest) (w : World)
    (c : wf_Clientset) (ns : string) (t : WorkflowTemplate) :
  Create_call c ns t ∈ fresh w (CreateWorkflowTemplate ctx req w).2 →
  (CreateWorkflowTemplate ctx req w).1 = (backend_Create c ns t (cluster w)).1 ∧
  cluster (CreateWorkflowTemplate ctx req w).2 = (backend_Create c ns t (cluster w)).2.
Proof.
  open_operations; resolve ctx w; branches;
    rewrite ?drop_resolved_2, ?drop_resolved, ?drop_app_length;
    intros Hin; decompose_list_elem_of; simplify_eq/=;
    try (by destruct (quiet_member _ _ Hquiet ltac:(eassumption)));
    done.
Qed.

(** X10. Create is Lint followed by at most one create call.  For a request
    that carries a template, the calls of Create are the calls of Lint,
    followed by nothing or by the create call of that template; the create
    call is there exactly when Lint returns no error; and on a rejecting
    verdict Lint returns the validator's error itself while Create returns
    it inside its validation-failure message. *)
Theorem create_extends_lint (ctx : Context)
    (req : WorkflowTemplateCreateRequest) (w : World) (t : WorkflowTemplate) :
  create_Template req = Some t →
  (is_Err (LintWorkflowTemplate ctx req w).1 = true →
     fresh w (CreateWorkflowTemplate ctx req w).2 =
       fresh w (LintWorkflowTemplate ctx req w).2) ∧
  (is_Err (LintWorkflowTemplate ctx req w).1 = false →
     ∃ c ns, fresh w (CreateWorkflowTemplate ctx req w).2 =
             fresh w (LintWorkflowTemplate ctx req w).2 ++ [Create_call c ns t]) ∧
  (∀ c ns e, ValidateWorkflowTemplate_call c ns (Some t) (Some e)
             ∈ fresh w (LintWorkflowTemplate ctx req w).2 →
     (LintWorkflowTemplate ctx req w).1 = Err e ∧
     (CreateWorkflowTemplate ctx req w).1 =
       Err (fmt_Errorf_v "Failed to create workflow template: " e)).
Proof.
  intros Ht. split_and!.
  - open_operations; resolve ctx w; rewrite ?Ht; branches; agree; done.
  - open_operations; resolve ctx w; rewrite ?Ht; branches; agree; try done;
      intros _; do 2 eexists;
      by rewrite drop_resolved_2, drop_resolved, <- app_assoc.
  - intros c ns e.
    open_operations; resolve ctx w; rewrite ?Ht; branches; agree;
      rewrite ?drop_resolved, ?drop_app_length;
      intros Hin; decompose_list_elem_of; simplify_eq/=;
      try (by destruct (quiet_member _ _ Hquiet ltac:(eassumption)));
      agree; done.
Qed.


(** X12. An operation talks to the backend only through the clientset that
    its client resolution returned: every call to the template collection
    made during the operation goes through the first component of the pair
    returned by [GetWFClient]. *)
Theorem operations_use_resolved_client (ctx : Context) (req : Request)
    (w w1 : World) (pair : wf_Clientset * kube_Clientset) :
  GetWFClient ctx w = (Ok pair, w1) →
  ∀ c cl, c ∈ fresh w (serve ctx req w).2 → call_client c = Some cl →
          cl = pair.1.
Proof.
  intros Hget c cl.
  destruct req; open_operations; resolve ctx w; simplify_eq/=; branches;
    rewrite ?drop_resolved_2, ?drop_resolved, ?drop_app_length;
    intros Hin Hcl; decompose_list_elem_of; simplify_eq/=; try done;
    by rewrite (quiet_no_client _ _ Hquiet ltac:(eassumption)) in Hcl.
Qed.

(** X13. Create insists on a template: for a request without one, no call
    addressed to a namespace is made (neither validation nor create), the
    store is left as it was, and the operation fails, with the error of the
    client resolution if that failed and with the missing-body error
    otherwise. *)
Theorem create_requires_template (ctx : Context)
    (req : WorkflowTemplateCreateRequest) (w : World) :
  create_Template req = None →
  (∀ x, x ∈ fresh w (CreateWorkflowTemplate ctx req w).2 → call_namespace x = None) ∧
  cluster (CreateWorkflowTemplate ctx req w).2 = cluster w ∧
  (∀ pair, (GetWFClient ctx w).1 = Ok pair →
     (CreateWorkflowTemplate ctx req w).1 =
       Err (errors_New "WorkflowTemplate is not found in Request body")) ∧
  (∀ e, (GetWFClient ctx w).1 = Err e → (CreateWorkflowTemplate ctx req w).1 = Err e).
Proof.
  intros Hnil. split_and!.
  - intros x. open_operations; resolve ctx w; rewrite ?Hnil; simpl;
      rewrite drop_app_length; intros Hin;
      by destruct (quiet_member _ _ Hquiet Hin).
  - open_operations; resolve ctx w; by rewrite ?Hnil.
  - intros pair. open_operations; resolve ctx w; rewrite ?Hnil; intros;
      by simplify_eq/=.
  - intros e'. open_operations; resolve ctx w; rewrite ?Hnil; intros;
      by simplify_eq/=.
Qed.
End Properties.

(** * The properties at work on the small platform *)

#[local] Existing Instance Demo.domain.
#[local] Existing Instance Demo.platform.

(** The shared pair comes back even though the request carries a blob and a
    token. *)
Lemma GetWFClient_shared_pair_witness :
  enableClientAuth (self (Demo.world false)) = false ∧
  GetWFClient Demo.both (Demo.world false) =
    (Ok (Demo.shared_wf, Demo.shared_kube), Demo.world false).
Proof.
  split; [reflexivity|].
  apply (GetWFClient_shared_pair Demo.both (Demo.world false)). reflexivity.
Defined.

(** The blob embeds the token [embedded]; the clients are built with the
    attached token. *)
Lemma bearer_token_overrides_witness :
  Forall (fun c => ∀ cfg, constructed_with c = Some cfg → BearerToken cfg = "s3cr3t")
         (fresh (Demo.world true) (GetWFClient Demo.both (Demo.world true)).2) ∧
  ∃ l, fresh (Demo.world true) (GetWFClient Demo.both (Demo.world true)).2 =
       wfclientset_NewForConfig_call (Demo.config "https://k8s:6443" "s3cr3t") :: l.
Proof.
  destruct (bearer_token_overrides Demo.both (Demo.world true)
              "https://k8s:6443#embedded" "s3cr3t" [] [])
    as (Hall & Hfirst & _); [reflexivity..|].
  split.
  - apply Forall_forall. intros c Hc cfg. apply Hall. exact Hc.
  - apply (Hfirst (Demo.config "https://k8s:6443" "embedded")). reflexivity.
Defined.

(** A host-less blob makes the first constructor fail: the logger receives
    the configuration with the token in it. *)
Lemma construction_failure_log_witness :
  BearerToken (Demo.config "" "s3cr3t") =
    attached_token Demo.hostless ∧
  ∃ err, (GetWFClient Demo.hostless (Demo.world true)).1 = Err err.
Proof.
  destruct (construction_failure_log Demo.hostless
              (Get_request {| get_Namespace := ""; get_TemplateName := "T1" |})
              (Demo.world true)) as [Hlog _].
  destruct (Hlog (log_Errorf wf_format (Demo.config "" "s3cr3t")
                    (Demo.failed Demo.HostMissing))
                 (Demo.config "" "s3cr3t"))
    as (Htok & err & Herr & _).
  - vm_compute. apply list_elem_of_further, list_elem_of_here.
  - reflexivity.
  - split; [exact Htok|]. exists err. exact Herr.
Defined.

(** C3, as stated, fails: with the token [s3cr3t] attached and a blob whose
    host is empty, the configuration passed to the logger holds [s3cr3t]. *)
Lemma token_reaches_log :
  ¬ token_kept_out_of_log Demo.hostless (Demo.world true).
Proof.
  intros Hredacted.
  apply (Hredacted
           (log_Errorf wf_format (Demo.config "" "s3cr3t")
              (Demo.failed Demo.HostMissing))
           (Demo.config "" "s3cr3t")).
  - vm_compute. apply list_elem_of_further, list_elem_of_here.
  - reflexivity.
  - reflexivity.
Qed.

(** [T1] is already stored in [ns-a]: it passes validation, Lint accepts it,
    and Create is refused by the backend. *)
Lemma create_rejects_what_lint_rejects_witness :
  ∃ c ns e,
    last (fresh (Demo.world false)
            (CreateWorkflowTemplate Demo.no_metadata
               (Demo.submit "" (Some Demo.T1)) (Demo.world false)).2) =
      Some (Create_call (dom := Demo.domain) c ns Demo.T1) ∧
    (backend_Create c ns Demo.T1 (cluster (Demo.world false))).1 = Err e ∧
    (CreateWorkflowTemplate Demo.no_metadata
       (Demo.submit "" (Some Demo.T1)) (Demo.world false)).1 = Err e.
Proof.
  apply (proj1 (proj2 (create_rejects_what_lint_rejects Demo.no_metadata
                         (Demo.submit "" (Some Demo.T1)) (Demo.world false)
                         Demo.T1 eq_refl)));
    reflexivity.
Defined.

(** C4, as stated, fails on that same request. *)
Lemma create_rejects_more_than_lint :
  ¬ same_rejections Demo.no_metadata
      (Demo.submit "" (Some Demo.T1))
      (Demo.world false).
Proof.
  unfold same_rejections. intros [Hcreate _].
  assert (is_Err (LintWorkflowTemplate Demo.no_metadata
            (Demo.submit "" (Some Demo.T1))
            (Demo.world false)).1 = false) as Hlint by (vm_compute; reflexivity).
  rewrite Hcreate in Hlint; [discriminate|].
  vm_compute. reflexivity.
Qed.

(** Create of [T1] into [ns-b]: the only namespace addressed is [ns-b]. *)
Lemma namespace_override_else_default_witness :
  Forall (fun c => ∀ ns, call_namespace c = Some ns → ns = "ns-b")
         (fresh (Demo.world false)
            (serve Demo.no_metadata
               (Create_request (Demo.submit "ns-b" (Some Demo.T1)))
               (Demo.world false)).2).
Proof.
  destruct (namespace_override_else_default Demo.no_metadata
              (Create_request (Demo.submit "ns-b" (Some Demo.T1)))
              (Demo.world false)) as (Hfield & _ & _).
  apply Forall_forall. intros c Hc ns. apply Hfield; [|exact Hc].
  simpl. discriminate.
Defined.

(** [T2] refers to [T1], which namespace [ns-b] does not hold: without a
    write, the store stays as it was. *)
Lemma create_validates_before_persisting_witness :
  cluster (CreateWorkflowTemplate Demo.no_metadata
             (Demo.submit "ns-b" (Some Demo.T2))
             (Demo.world false)).2 = cluster (Demo.world false).
Proof.
  apply (create_validates_before_persisting Demo.no_metadata
           (Demo.submit "ns-b" (Some Demo.T2))
           (Demo.world false)).
  vm_compute. intros x Hx.
  apply list_elem_of_singleton in Hx. rewrite Hx. reflexivity.
Defined.

(** Per-request auth with only a token attached: Get fails before any call. *)
Lemma missing_credentials_witness :
  serve Demo.token_only
    (Get_request {| get_Namespace := ""; get_TemplateName := "T1" |})
    (Demo.world true) =
  (Err (errors_New "Client kubeconfig is not found"), Demo.world true).
Proof.
  apply (missing_credentials Demo.token_only
           (Get_request {| get_Namespace := ""; get_TemplateName := "T1" |})
           (Demo.world true)); reflexivity.
Defined.

(** Lint of a new, valid template leaves the store alone. *)
Lemma lint_never_persists_witness :
  cluster (LintWorkflowTemplate Demo.no_metadata
             (Demo.submit "" (Some Demo.T2))
             (Demo.world false)).2 = cluster (Demo.world false).
Proof.
  apply (lint_never_persists Demo.no_metadata
           (Demo.submit "" (Some Demo.T2))
           (Demo.world false)).
Defined.

(** The blob embeds [embedded]; with no token attached the first constructor
    receives an empty token. *)
Lemma absent_token_erases_embedded_witness :
  json_Unmarshal "https://k8s:6443#embedded" rest_Config_zero =
    Ok (Demo.config "https://k8s:6443" "embedded") ∧
  ∃ l, fresh (Demo.world true) (GetWFClient Demo.blob_only (Demo.world true)).2 =
       wfclientset_NewForConfig_call
         (Demo.config "https://k8s:6443" "") :: l.
Proof.
  split; [reflexivity|].
  apply (absent_token_erases_embedded Demo.blob_only (Demo.world true)
           "https://k8s:6443#embedded" []
           (Demo.config "https://k8s:6443" "embedded"));
    reflexivity.
Defined.

(** A delete changes the store and leaves the server as constructed. *)
Lemma server_state_unchanged_witness :
  self (serve Demo.no_metadata
          (Delete_request {| delete_Namespace := ""; delete_TemplateName := "T1" |})
          (Demo.world false)).2 = Demo.server false.
Proof.
  apply (server_state_unchanged Demo.no_metadata
           (Delete_request {| delete_Namespace := ""; delete_TemplateName := "T1" |})
           (Demo.world false)).
Defined.

(** A blob that does not parse: Lint returns the decoder's error and the
    world is as before. *)
Lemma malformed_credentials_witness :
  serve Demo.malformed (Lint_request (Demo.submit "" (Some Demo.T1))) (Demo.world true) =
    (Err (Demo.failed Demo.SyntaxError), Demo.world true).
Proof.
  apply (malformed_credentials Demo.malformed
           (Lint_request (Demo.submit "" (Some Demo.T1))) (Demo.world true)
           "not a configuration" []); reflexivity.
Defined.

(** A failed construction: List returns the constructor's error after the
    constructor call and the log call, and nothing more. *)
Lemma resolution_failure_propagates_witness :
  serve Demo.hostless (List_request Demo.enumerate) (Demo.world true) =
    (Err (Demo.failed Demo.HostMissing),
     add_calls (Demo.world true)
       [wfclientset_NewForConfig_call (Demo.config "" "s3cr3t");
        log_Errorf wf_format (Demo.config "" "s3cr3t") (Demo.failed Demo.HostMissing)]).
Proof.
  apply (resolution_failure_propagates Demo.hostless (List_request Demo.enumerate)
           (Demo.world true)).
  vm_compute. reflexivity.
Defined.

(** The pair returned for [both] comes out of the constructors. *)
Lemma per_request_pair_is_constructed_witness :
  ∃ cfg0, wfclientset_NewForConfig (set_BearerToken cfg0 (attached_token Demo.both)) =
          Ok Demo.per_request_client.
Proof.
  destruct (per_request_pair_is_constructed Demo.both (Demo.world true)
              Demo.per_request_client Demo.per_request_client)
    as (blob & more & cfg0 & _ & _ & Hwf & _); [reflexivity..|].
  exists cfg0. exact Hwf.
Defined.

(** A failed first construction is logged once. *)
Lemma construction_short_circuits_witness :
  length (omap logged_config
            (fresh (Demo.world true) (GetWFClient Demo.hostless (Demo.world true)).2)) ≤ 1.
Proof.
  apply (construction_short_circuits Demo.hostless (Demo.world true)).
Defined.

(** Further values and a further key change nothing. *)
Lemma only_first_metadata_value_counts_witness :
  GetWFClient Demo.both (Demo.world true) =
  GetWFClient Demo.both_and_more (Demo.world true).
Proof.
  apply (only_first_metadata_value_counts Demo.both Demo.both_and_more
           (Demo.world true)); reflexivity.
Defined.

(** Get of the stored [T1] leaves the store alone. *)
Lemma get_returns_backend_answer_witness :
  cluster (GetWorkflowTemplate Demo.no_metadata (Demo.fetch "T1") (Demo.world false)).2 =
    cluster (Demo.world false).
Proof.
  apply (get_returns_backend_answer Demo.no_metadata (Demo.fetch "T1")
           (Demo.world false)).
Defined.

(** List of the default namespace leaves the store alone. *)
Lemma list_returns_backend_answer_witness :
  cluster (ListWorkflowTemplates Demo.no_metadata Demo.enumerate (Demo.world false)).2 =
    cluster (Demo.world false).
Proof.
  apply (list_returns_backend_answer Demo.no_metadata Demo.enumerate
           (Demo.world false)).
Defined.

(** Delete of the stored [T1] is acknowledged, and the backend had accepted
    it. *)
Lemma delete_acknowledges_witness :
  ∃ c ns, Delete_call (dom := Demo.domain) c ns "T1"
          ∈ fresh (Demo.world false)
              (DeleteWorkflowTemplate Demo.no_metadata (Demo.remove "T1")
                 (Demo.world false)).2 ∧
          (backend_Delete c ns "T1" (cluster (Demo.world false))).1 = None.
Proof.
  destruct (delete_acknowledges Demo.no_metadata (Demo.remove "T1")
              (Demo.world false)) as (Hack & _ & _).
  destruct (Hack {| TemplateName := "T1"; Status := "Deleted" |}) as [_ Hcall];
    [reflexivity|].
  exact Hcall.
Defined.

(** Create of the new, valid [T2] returns what the backend returned. *)
Lemma create_returns_backend_answer_witness :
  (CreateWorkflowTemplate Demo.no_metadata (Demo.submit "" (Some Demo.T2))
     (Demo.world false)).1 =
    (backend_Create Demo.shared_wf "ns-a" Demo.T2 (cluster (Demo.world false))).1 ∧
  cluster (CreateWorkflowTemplate Demo.no_metadata (Demo.submit "" (Some Demo.T2))
             (Demo.world false)).2 =
    (backend_Create Demo.shared_wf "ns-a" Demo.T2 (cluster (Demo.world false))).2.
Proof.
  apply (create_returns_backend_answer Demo.no_metadata
           (Demo.submit "" (Some Demo.T2)) (Demo.world false)).
  vm_compute. apply list_elem_of_further, list_elem_of_here.
Defined.

(** For the valid [T2], Create makes the calls of Lint and then one create
    call. *)
Lemma create_extends_lint_witness :
  ∃ c ns,
    fresh (Demo.world false)
      (CreateWorkflowTemplate Demo.no_metadata (Demo.submit "" (Some Demo.T2))
         (Demo.world false)).2 =
    fresh (Demo.world false)
      (LintWorkflowTemplate Demo.no_metadata (Demo.submit "" (Some Demo.T2))
         (Demo.world false)).2 ++ [Create_call (dom := Demo.domain) c ns Demo.T2].
Proof.
  apply (proj1 (proj2 (create_extends_lint Demo.no_metadata
                         (Demo.submit "" (Some Demo.T2)) (Demo.world false)
                         Demo.T2 eq_refl))).
  reflexivity.
Defined.


(** With [both] attached, Get goes through the client built for the
    request, not through the shared one. *)
Lemma operations_use_resolved_client_witness :
  Forall (fun c => ∀ cl, call_client c = Some cl → cl = Demo.per_request_client)
         (fresh (Demo.world true)
            (serve Demo.both (Get_request (Demo.fetch "T1")) (Demo.world true)).2).
Proof.
  apply Forall_forall. intros c Hc cl.
  apply (operations_use_resolved_client Demo.both (Get_request (Demo.fetch "T1"))
           (Demo.world true)
           (add_calls (Demo.world true)
              [wfclientset_NewForConfig_call (Demo.config "https://k8s:6443" "s3cr3t");
               kubernetes_NewForConfig_call (Demo.config "https://k8s:6443" "s3cr3t")])
           (Demo.per_request_client, Demo.per_request_client));
    [vm_compute; reflexivity|exact Hc].
Defined.

(** Create without template stops at its guard. *)
Lemma create_requires_template_witness :
  (CreateWorkflowTemplate Demo.no_metadata (Demo.submit "" None) (Demo.world false)).1 =
    Err (errors_New (dom := Demo.domain) "WorkflowTemplate is not found in Request body").
Proof.
  destruct (create_requires_template Demo.no_metadata (Demo.submit "" None)
              (Demo.world false)) as (_ & _ & Hbody & _); [reflexivity|].
  apply (Hbody (Demo.shared_wf, Demo.shared_kube)). reflexivity.
Defined.
